(** * Akwam streaming API: read-through cache handlers and pydantic models

    Shallow embedding of [src/backend/src/main.py] (the FastAPI handlers
    that sit in front of Redis) and of [src/backend/src/models.py] (the
    pydantic entity models).

    - JSON documents are the [json] type below; Python truthiness of the
      decoded document is [truthy].
    - The Redis store is a [gmap string (json * Z)]: a key maps to the
      stored document and its absolute expiry time in seconds.  [SETEX k
      ttl v] at time [now] stores [(v, now + ttl)]; [GET k] at time [now]
      sees the entry while [now <= expiry]: Redis expires a key only once
      the current time is past its expiry time.  The handlers store
      [json.dumps(data)] and return [json.loads(cached)]; on JSON
      documents this round trip is the identity, so the store keeps the
      document itself.  A dumped document is never the empty string, so
      the handlers' [if cached:] succeeds exactly when [GET] found an entry.
    - The scraper functions the handlers await are parameters of the
      handlers (Section variables); the placeholders of main.py are given
      as concrete instances.  A resolver may raise ([Raise]) and may give a
      different answer on each call: it receives the number of upstream
      calls made so far. *)

From stdpp Require Import base gmap strings list pretty.
From Stdlib Require Import QArith Ascii.

#[local] Set Warnings "-register-all".
#[local] Open Scope Z_scope.

(* ------------------------------------------------------------------ *)
(** ** JSON documents and Python truthiness *)

Inductive json : Type :=
| JNull
| JBool (b : bool)
| JNum (z : Z)
| JStr (s : string)
| JArr (l : list json)
| JObj (kvs : list (string * json)).

(** [if data:] in Python, for the decoded document: [None], [False],
    [0], [""], [[]] and [{}] are falsy. *)
Definition truthy (v : json) : bool :=
  match v with
  | JNull => false
  | JBool b => b
  | JNum z => negb (Z.eqb z 0)
  | JStr s => negb (String.eqb s "")
  | JArr l => negb (length l =? 0)%nat
  | JObj kvs => negb (length kvs =? 0)%nat
  end.

(** Outcome of awaiting a coroutine: a value, or a raised exception. *)
Inductive outcome : Type :=
| Ret (v : json)
| Raise (exn : string).

(* ------------------------------------------------------------------ *)
(** ** The Redis client *)

Record redis := mkRedis {
  store : gmap string (json * Z);  (** key |-> (document, expiry) *)
  clock : Z;                       (** current time, seconds *)
  upstream_calls : nat             (** number of scraper calls so far *)
}.

Definition redis_get (r : redis) (k : string) : option json :=
  match store r !! k with
  | Some (v, exp) => if Z.leb (clock r) exp then Some v else None
  | None => None
  end.

Definition redis_setex (r : redis) (k : string) (ttl : Z) (v : json) : redis :=
  mkRedis (<[k := (v, clock r + ttl)]> (store r)) (clock r) (upstream_calls r).

(** Awaiting a scraper function: one more upstream call. *)
Definition call_upstream (r : redis) : redis :=
  mkRedis (store r) (clock r) (S (upstream_calls r)).

(** Time passing between requests. *)
Definition advance (dt : Z) (r : redis) : redis :=
  mkRedis (store r) (clock r + dt) (upstream_calls r).

(** Python's [f"{x}"] for an int and for [Optional[int]]. *)
Definition str_int (z : Z) : string := pretty z.
Definition str_opt_int (o : option Z) : string :=
  match o with Some z => str_int z | None => "None" end.

(* ------------------------------------------------------------------ *)
(** ** The handlers of main.py *)

Record SearchRequest := mkSearchRequest {
  query : string;
  page : option Z   (** [Optional[int] = 1] *)
}.

Section Handlers.

(** The scraper functions (lines 174-196 of main.py are placeholders for
    them); the [nat] argument is the number of upstream calls made so far. *)
Variable get_home_content : nat -> Z -> outcome.
Variable perform_search : nat -> string -> option Z -> outcome.
Variable get_movie_info : nat -> string -> outcome.
Variable get_series_info : nat -> string -> outcome.
Variable extract_video_sources : nat -> string -> outcome.
Variable get_category_content : nat -> string -> Z -> outcome.

(** [get_home_page], main.py lines 68-83. *)
Definition get_home_page (pg : Z) (r : redis) : outcome * redis :=
  let cache_key := ("home_page_" ++ str_int pg)%string in
  match redis_get r cache_key with
  | Some cached => (Ret cached, r)
  | None =>
      let r1 := call_upstream r in
      match get_home_content (upstream_calls r) pg with
      | Raise e => (Raise e, r1)
      | Ret home_data => (Ret home_data, redis_setex r1 cache_key 3600 home_data)
      end
  end.

(** The key of [search_content], main.py line 88. *)
Definition search_cache_key (request : SearchRequest) : string :=
  ("search_" ++ query request ++ "_" ++ str_opt_int (page request))%string.

(** [search_content], main.py lines 85-99. *)
Definition search_content (request : SearchRequest) (r : redis) : outcome * redis :=
  let cache_key := search_cache_key request in
  match redis_get r cache_key with
  | Some cached => (Ret cached, r)
  | None =>
      let r1 := call_upstream r in
      match perform_search (upstream_calls r) (query request) (page request) with
      | Raise e => (Raise e, r1)
      | Ret search_results =>
          (Ret search_results, redis_setex r1 cache_key 1800 search_results)
      end
  end.

(** [get_movie_details], main.py lines 101-116. *)
Definition get_movie_details (movie_id : string) (r : redis) : outcome * redis :=
  let cache_key := ("movie_" ++ movie_id)%string in
  match redis_get r cache_key with
  | Some cached => (Ret cached, r)
  | None =>
      let r1 := call_upstream r in
      match get_movie_info (upstream_calls r) movie_id with
      | Raise e => (Raise e, r1)
      | Ret movie_data =>
          (Ret movie_data,
           if truthy movie_data then redis_setex r1 cache_key 7200 movie_data else r1)
      end
  end.

(** [get_series_details], main.py lines 118-133. *)
Definition get_series_details (series_id : string) (r : redis) : outcome * redis :=
  let cache_key := ("series_" ++ series_id)%string in
  match redis_get r cache_key with
  | Some cached => (Ret cached, r)
  | None =>
      let r1 := call_upstream r in
      match get_series_info (upstream_calls r) series_id with
      | Raise e => (Raise e, r1)
      | Ret series_data =>
          (Ret series_data,
           if truthy series_data then redis_setex r1 cache_key 7200 series_data else r1)
      end
  end.

(** [get_video_sources], main.py lines 135-150. *)
Definition get_video_sources (content_id : string) (r : redis) : outcome * redis :=
  let cache_key := ("watch_" ++ content_id)%string in
  match redis_get r cache_key with
  | Some cached => (Ret cached, r)
  | None =>
      let r1 := call_upstream r in
      match extract_video_sources (upstream_calls r) content_id with
      | Raise e => (Raise e, r1)
      | Ret sources =>
          (Ret sources,
           if truthy sources then redis_setex r1 cache_key 3600 sources else r1)
      end
  end.

(** [get_category], main.py lines 152-166. *)
Definition get_category (category : string) (pg : Z) (r : redis) : outcome * redis :=
  let cache_key := ("category_" ++ category ++ "_" ++ str_int pg)%string in
  match redis_get r cache_key with
  | Some cached => (Ret cached, r)
  | None =>
      let r1 := call_upstream r in
      match get_category_content (upstream_calls r) category pg with
      | Raise e => (Raise e, r1)
      | Ret category_data =>
          (Ret category_data, redis_setex r1 cache_key 3600 category_data)
      end
  end.

End Handlers.

(** The six scraper functions the handlers await. *)
Record scrapers := mkScrapers {
  sc_home : nat -> Z -> outcome;
  sc_search : nat -> string -> option Z -> outcome;
  sc_movie : nat -> string -> outcome;
  sc_series : nat -> string -> outcome;
  sc_watch : nat -> string -> outcome;
  sc_category : nat -> string -> Z -> outcome
}.

(** The placeholders of main.py, lines 174-196. *)
Definition placeholder_scrapers : scrapers := mkScrapers
  (fun _ _ => Ret (JObj [("sections", JArr []); ("featured", JArr [])]))
  (fun _ _ _ => Ret (JObj [("results", JArr []); ("total_pages", JNum 0)]))
  (fun _ _ => Ret JNull)
  (fun _ _ => Ret JNull)
  (fun _ _ => Ret (JArr []))
  (fun _ _ _ => Ret (JObj [("items", JArr []); ("total_pages", JNum 0)])).

(** A request to one of the six cached routes. *)
Inductive request : Type :=
| GetHome (pg : Z)
| Search (req : SearchRequest)
| GetMovie (movie_id : string)
| GetSeries (series_id : string)
| GetWatch (content_id : string)
| GetCategory (category : string) (pg : Z).

(** The FastAPI routing of a request to its handler. *)
Definition handle (s : scrapers) (q : request) (r : redis) : outcome * redis :=
  match q with
  | GetHome pg => get_home_page (sc_home s) pg r
  | Search req => search_content (sc_search s) req r
  | GetMovie i => get_movie_details (sc_movie s) i r
  | GetSeries i => get_series_details (sc_series s) i r
  | GetWatch i => get_video_sources (sc_watch s) i r
  | GetCategory c pg => get_category (sc_category s) c pg r
  end.

(** The key each handler builds (its first line). *)
Definition cache_key (q : request) : string :=
  match q with
  | GetHome pg => "home_page_" ++ str_int pg
  | Search req => search_cache_key req
  | GetMovie i => "movie_" ++ i
  | GetSeries i => "series_" ++ i
  | GetWatch i => "watch_" ++ i
  | GetCategory c pg => "category_" ++ c ++ "_" ++ str_int pg
  end%string.

(** The scraper call each handler makes on a miss. *)
Definition resolve (s : scrapers) (q : request) (n : nat) : outcome :=
  match q with
  | GetHome pg => sc_home s n pg
  | Search req => sc_search s n (query req) (page req)
  | GetMovie i => sc_movie s n i
  | GetSeries i => sc_series s n i
  | GetWatch i => sc_watch s n i
  | GetCategory c pg => sc_category s n c pg
  end.

(** The spec's per-operation policy: the TTL table and the operations
    whose empty results are not cached. *)
Definition ttl_table (q : request) : Z :=
  match q with
  | GetHome _ => 3600
  | Search _ => 1800
  | GetMovie _ => 7200
  | GetSeries _ => 7200
  | GetWatch _ => 3600
  | GetCategory _ _ => 3600
  end.

Definition negative_suppressed (q : request) : bool :=
  match q with
  | GetMovie _ | GetSeries _ | GetWatch _ => true
  | _ => false
  end.


Definition empty_redis : redis := mkRedis ∅ 0 0.

(** Scrapers giving a non-empty movie document and three video sources. *)
Definition sample_movie : json :=
  JObj [("id", JStr "m1"); ("title", JStr "The Movie"); ("year", JNum 2020)].

Definition src_json (url quality : string) (direct proxy : bool) (bitrate : Z) : json :=
  JObj [("url", JStr url); ("quality", JStr quality); ("bitrate", JNum bitrate);
        ("is_direct", JBool direct); ("requires_proxy", JBool proxy)].

(** The spec's selector example, in the order the scraper lists it. *)
Definition sample_sources : list json :=
  [src_json "https://a.example/sd.mp4" "SD" true false 500;
   src_json "https://b.example/hd.mp4" "HD" false true 300;
   src_json "https://c.example/hd.mp4" "HD" true false 200].

Definition sample_scrapers : scrapers := mkScrapers
  (sc_home placeholder_scrapers) (sc_search placeholder_scrapers)
  (fun _ _ => Ret sample_movie) (sc_series placeholder_scrapers)
  (fun _ _ => Ret (JArr sample_sources)) (sc_category placeholder_scrapers).

(** Scrapers whose movie page parses to the empty document [{}]. *)
Definition empty_doc_scrapers : scrapers := mkScrapers
  (sc_home placeholder_scrapers) (sc_search placeholder_scrapers)
  (fun _ _ => Ret (JObj [])) (sc_series placeholder_scrapers)
  (sc_watch placeholder_scrapers) (sc_category placeholder_scrapers).

(* ------------------------------------------------------------------ *)
(** ** The pydantic models of models.py

    A model is built from the raw keyword arguments; each field is given
    at its declared type ([None] when absent or null), so pydantic's type
    coercion is not modelled, only the field constraints and validators.
    A failed construction is a [ValidationError] listing the failing
    fields in declaration order. *)

Inductive Quality := SD | HD | FHD | UHD.

(** [Quality(v)] for the enum's string values. *)
Definition parse_quality (s : string) : option Quality :=
  if String.eqb s "SD" then Some SD
  else if String.eqb s "HD" then Some HD
  else if String.eqb s "FHD" then Some FHD
  else if String.eqb s "UHD" then Some UHD
  else None.

Record MovieInput := mkMovieInput {
  in_id : option string;
  in_title : option string;
  in_original_title : option string;
  in_description : option string;
  in_year : option Z;
  in_duration : option Z;
  in_rating : option Q
}.

Record MovieBase := mkMovieBase {
  id : string;
  title : string;
  original_title : option string;
  description : option string;
  year : option Z;
  duration : option Z;
  rating : option Q
}.

(** [MovieBase.validate_year], models.py lines 37-41, with
    [datetime.now().year] as [now_year]: [if v and (...)] tests the
    truthiness of [v]. *)
Definition validate_year (now_year : Z) (v : option Z) : bool :=
  match v with
  | Some y => negb ((negb (Z.eqb y 0)) && ((y <? 1900) || (now_year + 1 <? y)))
  | None => true
  end.

(** [Field(None, ge=0, le=10)] on [rating]. *)
Definition validate_rating (v : option Q) : bool :=
  match v with
  | Some x => Qle_bool 0 x && Qle_bool x 10
  | None => true
  end.

(** Field checks of [MovieBase]: two required fields, the year
    validator and the rating bounds. *)
Definition movie_base_errors (now_year : Z) (m : MovieInput) : list string :=
  (match in_id m with Some _ => [] | None => ["id"%string] end) ++
  (match in_title m with Some _ => [] | None => ["title"%string] end) ++
  (if validate_year now_year (in_year m) then [] else ["year"%string]) ++
  (if validate_rating (in_rating m) then [] else ["rating"%string]).

Definition validate_movie_base (now_year : Z) (m : MovieInput)
    : list string + MovieBase :=
  match movie_base_errors now_year m, in_id m, in_title m with
  | [], Some i, Some t =>
      inr (mkMovieBase i t (in_original_title m) (in_description m)
             (in_year m) (in_duration m) (in_rating m))
  | errs, _, _ => inl errs
  end.

(** [str.strip()]: a character is read as the code point of its byte
    (0-255), and the whitespace ones are those of [str.isspace]. *)
Definition is_space (c : Ascii.ascii) : bool :=
  match Ascii.nat_of_ascii c with
  | 9 | 10 | 11 | 12 | 13 | 28 | 29 | 30 | 31 | 32 | 133 | 160 => true
  | _ => false
  end%nat.

Fixpoint lstrip (s : string) : string :=
  match s with
  | String c s' => if is_space c then lstrip s' else s
  | EmptyString => EmptyString
  end.

Fixpoint rev_string (s : string) : string :=
  match s with
  | String c s' => (rev_string s' ++ String c EmptyString)%string
  | EmptyString => EmptyString
  end.

Definition strip (s : string) : string := rev_string (lstrip (rev_string (lstrip s))).

(** [EpisodeBase.validate_title], models.py lines 74-78. *)
Definition validate_episode_title (v : string) : option string :=
  if String.eqb v "" || String.eqb (strip v) "" then None else Some (strip v).

Record VideoSourceInput := mkVideoSourceInput {
  in_url : option string;
  in_quality : option string;
  in_type : option string;
  in_size : option string;
  in_bitrate : option Z;
  in_width : option Z;
  in_height : option Z;
  in_is_direct : option bool;
  in_requires_proxy : option bool
}.

Record VideoSource := mkVideoSource {
  url : string;
  quality : Quality;
  type : string;
  size : option string;
  bitrate : option Z;
  width : option Z;
  height : option Z;
  is_direct : bool;
  requires_proxy : bool
}.

(** [VideoSource.validate_url], models.py lines 148-152. *)
Definition validate_url (v : string) : bool :=
  negb (String.eqb v "") &&
  (String.prefix "http://" v || String.prefix "https://" v || String.prefix "//" v).

(** [VideoSource], models.py lines 137-152: [url] is required and
    validated, [quality] must be a [Quality] value (default HD), the two
    flags default to [True] and [False]. *)
Definition validate_video_source (v : VideoSourceInput) : list string + VideoSource :=
  let url_ok := match in_url v with Some u => validate_url u | None => false end in
  let q := match in_quality v with
           | Some s => parse_quality s
           | None => Some HD
           end in
  match url_ok, in_url v, q with
  | true, Some u, Some qv =>
      inr (mkVideoSource u qv (default "video/mp4" (in_type v)) (in_size v)
             (in_bitrate v) (in_width v) (in_height v)
             (default true (in_is_direct v)) (default false (in_requires_proxy v)))
  | _, _, _ =>
      inl ((if url_ok then [] else ["url"%string]) ++
           (match q with Some _ => [] | None => ["quality"%string] end))
  end.


Definition with_flags (v : VideoSourceInput) (d p : bool) : VideoSourceInput :=
  mkVideoSourceInput (in_url v) (in_quality v) (in_type v) (in_size v)
    (in_bitrate v) (in_width v) (in_height v) (Some d) (Some p).

Definition set_flags (s : VideoSource) (d p : bool) : VideoSource :=
  mkVideoSource (url s) (quality s) (type s) (size s) (bitrate s) (width s)
    (height s) d p.

(** A movie input with every optional field absent. *)
Definition movie_input (i t : option string) (y : option Z) : MovieInput :=
  mkMovieInput i t None None y None None.

(* ------------------------------------------------------------------ *)
(** ** Video source ordering *)

Fixpoint json_field (k : string) (kvs : list (string * json)) : option json :=
  match kvs with
  | [] => None
  | (k', v) :: rest => if String.eqb k k' then Some v else json_field k rest
  end.

Definition quality_rank (s : string) : Z :=
  match parse_quality s with
  | Some UHD => 3 | Some FHD => 2 | Some HD => 1 | Some SD => 0 | None => -1
  end.

(** The ranking key of a source document: quality, is_direct, bitrate. *)
Definition source_key (v : json) : Z * Z * option Z :=
  match v with
  | JObj kvs =>
      (match json_field "quality" kvs with Some (JStr q) => quality_rank q | _ => -1 end,
       match json_field "is_direct" kvs with Some (JBool true) => 1 | _ => 0 end,
       match json_field "bitrate" kvs with Some (JNum b) => Some b | _ => None end)
  | _ => (-1, 0, None)
  end.

(** Follows the spec (section 4.3), not the code: [a] ranks strictly
    before [b] by quality descending, then is_direct descending, then
    bitrate descending when both are present. *)
Definition spec_ranks_before (a b : json) : bool :=
  let '(qa, da, ba) := source_key a in
  let '(qb, db, bb) := source_key b in
  (qb <? qa) || ((qa =? qb) && ((db <? da) ||
    ((da =? db) && match ba, bb with Some x, Some y => y <? x | _, _ => false end))).

Fixpoint spec_insert (x : json) (l : list json) : list json :=
  match l with
  | [] => [x]
  | y :: l' => if spec_ranks_before y x then y :: spec_insert x l' else x :: l
  end.

(** Follows the spec: the stable best-first ordering of the selector. *)
Fixpoint spec_select_sources (l : list json) : list json :=
  match l with
  | [] => []
  | x :: l' => spec_insert x (spec_select_sources l')
  end.


(* ------------------------------------------------------------------ *)
(** ** Concurrent GetHome requests on the event loop

    Each request is a coroutine running [get_home_page]; the scheduler
    picks which one runs next.  The Redis client is synchronous
    ([redis.Redis]), so [GET] and [SETEX] run without suspending; a
    coroutine can only suspend inside [await get_home_content(page)], and
    only when the scraper itself suspends (awaits I/O that is not ready).
    [suspends n pg] tells whether the scraper's call number [n] does so. *)

Module Concurrent.

Inductive task : Type :=
| TStart                 (** not yet run *)
| TAwait (n : nat)       (** suspended in the scraper call number [n] *)
| TDone (o : outcome).   (** returned or raised *)


Section Run.
Variable get_home_content : nat -> Z -> outcome.
Variable suspends : nat -> Z -> bool.
Variable pg : Z.

Definition home_key : string := ("home_page_" ++ str_int pg)%string.

(** The rest of [get_home_page] once the scraper call [n] returns. *)
Definition finish (n : nat) (r : redis) : task * redis :=
  match get_home_content n pg with
  | Raise e => (TDone (Raise e), r)
  | Ret home_data => (TDone (Ret home_data), redis_setex r home_key 3600 home_data)
  end.

(** One run of a coroutine up to its next suspension or its end. *)
Definition step_task (t : task) (r : redis) : task * redis :=
  match t with
  | TStart =>
      match redis_get r home_key with
      | Some cached => (TDone (Ret cached), r)
      | None =>
          if suspends (upstream_calls r) pg
          then (TAwait (upstream_calls r), call_upstream r)
          else finish (upstream_calls r) (call_upstream r)
      end
  | TAwait n => finish n r
  | TDone o => (TDone o, r)
  end.

Definition step (i : nat) (ts : list task) (r : redis) : list task * redis :=
  match ts !! i with
  | Some t => let '(t', r') := step_task t r in (<[i := t']> ts, r')
  | None => (ts, r)
  end.

Fixpoint run (sched : list nat) (ts : list task) (r : redis) : list task * redis :=
  match sched with
  | [] => (ts, r)
  | i :: sched' => let '(ts', r') := step i ts r in run sched' ts' r'
  end.

End Run.

Definition io_suspends : nat -> Z -> bool := fun _ _ => true.

End Concurrent.

Import Concurrent.

(* ------------------------------------------------------------------ *)
(** ** Characters of a cache key *)

(** [c not in s]. *)
Fixpoint char_free (c : ascii) (s : string) : bool :=
  match s with
  | EmptyString => true
  | String c' s' => negb (Ascii.eqb c c') && char_free c s'
  end.

(** The characters [str(int)] can produce: decimal digits and ['-']. *)
Definition int_char (c : ascii) : bool :=
  let n := nat_of_ascii c in (((48 <=? n) && (n <=? 57)) || (n =? 45))%nat.

(** A schedule in which each request runs to completion (two steps: up to
    its scraper call, then on to its return) before the next one starts. *)
Definition serial_schedule (l : list nat) : list nat := flat_map (fun i => [i; i]) l.

(* ------------------------------------------------------------------ *)
(** ** More pydantic models of models.py *)

Record EpisodeInput := mkEpisodeInput {
  ep_in_id : option string;
  ep_in_title : option string;
  ep_in_episode_number : option Z;
  ep_in_season_number : option Z;
  ep_in_description : option string;
  ep_in_duration : option Z
}.

Record EpisodeBase := mkEpisodeBase {
  ep_id : string;
  ep_title : string;
  episode_number : Z;
  season_number : Z;
  ep_description : option string;
  ep_duration : option Z
}.

(** [EpisodeBase], models.py lines 66-78: [episode_number] is required
    with [ge=1], [season_number] defaults to 1 with [ge=1], and the title
    validator strips the title and rejects an empty or blank one. *)
Definition episode_errors (e : EpisodeInput) : list string :=
  (match ep_in_id e with Some _ => [] | None => ["id"%string] end) ++
  (match ep_in_title e with
   | Some t => match validate_episode_title t with Some _ => [] | None => ["title"%string] end
   | None => ["title"%string]
   end) ++
  (match ep_in_episode_number e with
   | Some n => if 1 <=? n then [] else ["episode_number"%string]
   | None => ["episode_number"%string]
   end) ++
  (if 1 <=? default 1 (ep_in_season_number e) then [] else ["season_number"%string]).

Definition validate_episode (e : EpisodeInput) : list string + EpisodeBase :=
  match episode_errors e, ep_in_id e,
        match ep_in_title e with Some t => validate_episode_title t | None => None end,
        ep_in_episode_number e with
  | [], Some i, Some t, Some n =>
      inr (mkEpisodeBase i t n (default 1 (ep_in_season_number e))
             (ep_in_description e) (ep_in_duration e))
  | errs, _, _, _ => inl errs
  end.

Record SeriesInput := mkSeriesInput {
  se_in_id : option string;
  se_in_title : option string;
  se_in_original_title : option string;
  se_in_description : option string;
  se_in_year_start : option Z;
  se_in_year_end : option Z;
  se_in_rating : option Q;
  se_in_total_seasons : option Z;
  se_in_total_episodes : option Z
}.

Record SeriesBase := mkSeriesBase {
  se_id : string;
  se_title : string;
  se_original_title : option string;
  se_description : option string;
  year_start : option Z;
  year_end : option Z;
  se_rating : option Q;
  total_seasons : option Z;
  total_episodes : option Z
}.

(** [SeriesBase.validate_year_end], models.py lines 106-111: [year_start]
    is validated first, so it is in [values]; the order check runs only
    when [v] and [values['year_start']] are both truthy. *)
Definition validate_year_end (year_start_v : option Z) (v : option Z) : bool :=
  match v, year_start_v with
  | Some e, Some st => if negb (e =? 0) && negb (st =? 0) then negb (e <? st) else true
  | _, _ => true
  end.

(** [Field(None, ge=1)] on an optional int. *)
Definition validate_ge1 (v : option Z) : bool :=
  match v with Some n => 1 <=? n | None => true end.

(** [SeriesBase], models.py lines 95-111. *)
Definition series_errors (m : SeriesInput) : list string :=
  (match se_in_id m with Some _ => [] | None => ["id"%string] end) ++
  (match se_in_title m with Some _ => [] | None => ["title"%string] end) ++
  (if validate_year_end (se_in_year_start m) (se_in_year_end m) then [] else ["year_end"%string]) ++
  (if validate_rating (se_in_rating m) then [] else ["rating"%string]) ++
  (if validate_ge1 (se_in_total_seasons m) then [] else ["total_seasons"%string]) ++
  (if validate_ge1 (se_in_total_episodes m) then [] else ["total_episodes"%string]).

Definition validate_series_base (m : SeriesInput) : list string + SeriesBase :=
  match series_errors m, se_in_id m, se_in_title m with
  | [], Some i, Some t =>
      inr (mkSeriesBase i t (se_in_original_title m) (se_in_description m)
             (se_in_year_start m) (se_in_year_end m) (se_in_rating m)
             (se_in_total_seasons m) (se_in_total_episodes m))
  | errs, _, _ => inl errs
  end.

Record SubtitleInput := mkSubtitleInput {
  sub_in_language : option string;
  sub_in_url : option string;
  sub_in_format : option string;
  sub_in_is_default : option bool
}.

Record Subtitle := mkSubtitle {
  language : string;
  sub_url : string;
  format : string;
  is_default : bool
}.

(** [valid_languages] of [Subtitle.validate_language], models.py line 162. *)
Definition valid_languages : list string :=
  ["ar"; "en"; "tr"; "fr"; "es"; "de"; "ru"; "fa"; "ur"]%string.

Definition validate_language (v : string) : bool :=
  existsb (String.eqb v) valid_languages.

(** [Subtitle], models.py lines 154-165. *)
Definition validate_subtitle (v : SubtitleInput) : list string + Subtitle :=
  let lang_ok := match sub_in_language v with Some l => validate_language l | None => false end in
  match lang_ok, sub_in_language v, sub_in_url v with
  | true, Some l, Some u =>
      inr (mkSubtitle l u (default "srt" (sub_in_format v)) (default false (sub_in_is_default v)))
  | _, _, _ =>
      inl ((if lang_ok then [] else ["language"%string]) ++
           (match sub_in_url v with Some _ => [] | None => ["url"%string] end))
  end.

(** The string a [Quality] member serialises to ([use_enum_values]). *)
Definition quality_value (q : Quality) : string :=
  match q with SD => "SD" | HD => "HD" | FHD => "FHD" | UHD => "UHD" end.

(** [str.rstrip()]; [strip] is [rstrip] after [lstrip]. *)
Definition rstrip (s : string) : string := rev_string (lstrip (rev_string s)).

(** Scrapers that always raise. *)
Definition failing_scrapers : scrapers := mkScrapers
  (fun _ _ => Raise "timeout") (fun _ _ _ => Raise "timeout") (fun _ _ => Raise "timeout")
  (fun _ _ => Raise "timeout") (fun _ _ => Raise "timeout") (fun _ _ _ => Raise "timeout").

(* ================================================================== *)
(** * Theorems *)

(* ------------------------------------------------------------------ *)
(** ** Sanity checks on concrete requests *)

Example home_first_call :
  handle placeholder_scrapers (GetHome 1) empty_redis =
  (Ret (JObj [("sections", JArr []); ("featured", JArr [])]),
   mkRedis {[ "home_page_1" := (JObj [("sections", JArr []); ("featured", JArr [])], 3600) ]} 0 1).
Proof. reflexivity. Qed.

Example movie_first_call :
  handle placeholder_scrapers (GetMovie "m1") empty_redis = (Ret JNull, mkRedis ∅ 0 1).
Proof. reflexivity. Qed.

(* ------------------------------------------------------------------ *)
(** ** Lemmas about the handlers *)

Ltac unfold_handler :=
  unfold handle, get_home_page, search_content, get_movie_details,
    get_series_details, get_video_sources, get_category in *.

Lemma handle_key (s : scrapers) (q : request) (r : redis) :
  handle s q r =
  match redis_get r (cache_key q) with
  | Some cached => (Ret cached, r)
  | None =>
      match resolve s q (upstream_calls r) with
      | Raise e => (Raise e, call_upstream r)
      | Ret v =>
          (Ret v,
           if negative_suppressed q && negb (truthy v) then call_upstream r
           else redis_setex (call_upstream r) (cache_key q) (ttl_table q) v)
      end
  end.
Proof.
  destruct q; unfold_handler; simpl;
    destruct (redis_get r _); try reflexivity;
    match goal with |- context [match ?o with Ret _ => _ | Raise _ => _ end] =>
      destruct o as [v|e]; try reflexivity end;
    destruct (truthy v); reflexivity.
Qed.

Lemma handle_hit (s : scrapers) (q : request) (r : redis) (w : json) :
  redis_get r (cache_key q) = Some w -> handle s q r = (Ret w, r).
Proof. intros H. rewrite handle_key, H. reflexivity. Qed.

Lemma handle_miss (s : scrapers) (q : request) (r : redis) (v : json) :
  redis_get r (cache_key q) = None ->
  resolve s q (upstream_calls r) = Ret v ->
  handle s q r =
  (Ret v,
   if negative_suppressed q && negb (truthy v) then call_upstream r
   else redis_setex (call_upstream r) (cache_key q) (ttl_table q) v).
Proof. intros H1 H2. rewrite handle_key, H1, H2. reflexivity. Qed.

Lemma redis_get_call_upstream (r : redis) (k : string) :
  redis_get (call_upstream r) k = redis_get r k.
Proof. reflexivity. Qed.

Lemma redis_get_setex_eq (r : redis) (k : string) (ttl : Z) (v : json) :
  0 < ttl -> redis_get (redis_setex r k ttl v) k = Some v.
Proof.
  intros Hpos. unfold redis_get, redis_setex; simpl.
  rewrite lookup_insert_eq. destruct (Z.leb_spec (clock r) (clock r + ttl)); [done | lia].
Qed.

(** A handler only raises what its scraper raised. *)
Lemma handle_raise (s : scrapers) (q : request) (r : redis) (e : string) :
  fst (handle s q r) = Raise e ->
  redis_get r (cache_key q) = None /\ resolve s q (upstream_calls r) = Raise e.
Proof.
  rewrite handle_key. destruct (redis_get r (cache_key q)); simpl; [discriminate|].
  destruct (resolve s q (upstream_calls r)); simpl; [discriminate|].
  intros [= ->]. auto.
Qed.

(* ------------------------------------------------------------------ *)
(** ** Cache policy *)

(** C1: on a miss, movie, series and watch do not write an empty or absent
    (falsy) result, so the next request for that key calls the scraper
    again; home, search and category write whatever the scraper returned,
    empty result sets included. *)
Theorem negative_result_suppression
    (s : scrapers) (q : request) (r : redis) (v : json) :
  redis_get r (cache_key q) = None ->
  resolve s q (upstream_calls r) = Ret v ->
  let '(res, r') := handle s q r in
  res = Ret v /\
  (negative_suppressed q = true -> truthy v = false ->
     store r' = store r /\ redis_get r' (cache_key q) = None /\
     upstream_calls (snd (handle s q r')) = S (upstream_calls r')) /\
  (negative_suppressed q = false ->
     store r' = <[cache_key q := (v, clock r + ttl_table q)]> (store r)).
Proof.
  intros Hmiss Hres. rewrite (handle_miss s q r v Hmiss Hres).
  split; [reflexivity|]. split.
  - intros -> ->. simpl. split; [reflexivity|].
    assert (Hg : redis_get (call_upstream r) (cache_key q) = None)
      by (rewrite redis_get_call_upstream; exact Hmiss).
    split; [exact Hg|].
    rewrite handle_key, Hg. simpl.
    destruct (resolve s q (S (upstream_calls r))) as [w|e]; simpl; [|reflexivity].
    destruct (negative_suppressed q && negb (truthy w)); reflexivity.
  - intros ->. reflexivity.
Qed.

Lemma negative_result_suppression_witness :
  redis_get empty_redis (cache_key (GetMovie "m1")) = None /\
  resolve placeholder_scrapers (GetMovie "m1") (upstream_calls empty_redis) = Ret JNull /\
  (let '(res, r') := handle placeholder_scrapers (GetMovie "m1") empty_redis in
   res = Ret JNull /\
   (negative_suppressed (GetMovie "m1") = true -> truthy JNull = false ->
      store r' = store empty_redis /\ redis_get r' (cache_key (GetMovie "m1")) = None /\
      upstream_calls (snd (handle placeholder_scrapers (GetMovie "m1") r')) =
        S (upstream_calls r')) /\
   (negative_suppressed (GetMovie "m1") = false ->
      store r' = <[cache_key (GetMovie "m1") :=
                    (JNull, clock empty_redis + ttl_table (GetMovie "m1"))]>
                 (store empty_redis))).
Proof.
  split; [reflexivity|]. split; [reflexivity|].
  apply (negative_result_suppression placeholder_scrapers (GetMovie "m1") empty_redis JNull);
    reflexivity.
Defined.

(** C4: every write a handler makes is [SETEX key ttl result] with the TTL
    of the spec's table (home 3600, search 1800, movie 7200, series 7200,
    watch 3600, category 3600): its expiry time is [ttl] seconds
    after the request; a handler that does not write leaves the store as
    it was. *)
Theorem cache_write_ttl (s : scrapers) (q : request) (r : redis) :
  let '(res, r') := handle s q r in
  store r' = store r \/
  exists v, res = Ret v /\
    store r' = <[cache_key q := (v, clock r + ttl_table q)]> (store r).
Proof.
  rewrite handle_key. destruct (redis_get r (cache_key q)); [left; reflexivity|].
  destruct (resolve s q (upstream_calls r)) as [v|e]; [|left; reflexivity].
  destruct (negative_suppressed q && negb (truthy v)); [left; reflexivity|].
  right. exists v. split; reflexivity.
Qed.

(** C3 (counterexample): two [GetMovie "m1"] calls one second apart on an
    empty cache, where the scraper returns the non-absent but empty
    document [{}]: that result is not cached, so the second call resolves
    again and there are two upstream calls. *)
Lemma read_through_empty_document_resolves_twice :
  let '(o1, r1) := handle empty_doc_scrapers (GetMovie "m1") empty_redis in
  let '(o2, r2) := handle empty_doc_scrapers (GetMovie "m1") (advance 1 r1) in
  o1 = Ret (JObj []) /\ o1 <> Ret JNull /\ o2 = o1 /\ upstream_calls r2 = 2%nat.
Proof. vm_compute. split; [reflexivity|]. split; [discriminate|]. split; reflexivity. Qed.

(** C3 (amended): a request whose key has a live entry returns that entry
    and calls no scraper; and two sequential [GetMovie] calls for the same
    id, less than 7200 s apart, where the first misses the cache and its
    resolution is truthy (not None, [{}], [[]], [""], 0 or false), make
    exactly one upstream call, and the second returns the first's data. *)
Theorem read_through_idempotence
    (s : scrapers) (i : string) (r0 : redis) (dt : Z) (v : json) :
  redis_get r0 (cache_key (GetMovie i)) = None ->
  sc_movie s (upstream_calls r0) i = Ret v ->
  truthy v = true ->
  0 <= dt < 7200 ->
  (forall (q : request) (r : redis) (w : json),
     redis_get r (cache_key q) = Some w -> handle s q r = (Ret w, r)) /\
  (let '(o1, r1) := handle s (GetMovie i) r0 in
   let '(o2, r2) := handle s (GetMovie i) (advance dt r1) in
   o1 = Ret v /\ o2 = o1 /\ upstream_calls r2 = S (upstream_calls r0)).
Proof.
  intros Hmiss Hres Htr Hdt. split; [exact (handle_hit s)|].
  rewrite (handle_miss s (GetMovie i) r0 v Hmiss Hres). simpl negative_suppressed.
  rewrite Htr. cbn -[handle redis_setex call_upstream advance].
  rewrite (handle_hit s (GetMovie i) _ v).
  - auto.
  - unfold redis_get, advance, redis_setex; simpl.
    rewrite lookup_insert_eq.
    destruct (Z.leb_spec (clock r0 + dt) (clock r0 + 7200)); [reflexivity | lia].
Qed.

Lemma read_through_idempotence_witness :
  redis_get empty_redis (cache_key (GetMovie "m1")) = None /\
  sc_movie sample_scrapers (upstream_calls empty_redis) "m1" = Ret sample_movie /\
  truthy sample_movie = true /\ 0 <= 60 < 7200 /\
  ((forall (q : request) (r : redis) (w : json),
      redis_get r (cache_key q) = Some w -> handle sample_scrapers q r = (Ret w, r)) /\
   (let '(o1, r1) := handle sample_scrapers (GetMovie "m1") empty_redis in
    let '(o2, r2) := handle sample_scrapers (GetMovie "m1") (advance 60 r1) in
    o1 = Ret sample_movie /\ o2 = o1 /\ upstream_calls r2 = S (upstream_calls empty_redis))).
Proof.
  split; [reflexivity|]. split; [reflexivity|]. split; [reflexivity|]. split; [lia|].
  apply (read_through_idempotence sample_scrapers "m1" empty_redis 60 sample_movie);
    [reflexivity | reflexivity | reflexivity | lia].
Defined.

(** C10: for a [GetMovie] or a [GetSeries] request that misses the cache,
    when its scraper returns None for the id, the handler returns None as a
    normal result, raises nothing and writes nothing to the cache, whatever
    the other route's entry or scraper; the handlers have no not-found
    error of their own: any exception they raise is the scraper's. *)
Theorem absent_result_returned_as_null (s : scrapers) (q : request) (r : redis) :
  (exists i, q = GetMovie i \/ q = GetSeries i) ->
  redis_get r (cache_key q) = None ->
  resolve s q (upstream_calls r) = Ret JNull ->
  handle s q r = (Ret JNull, call_upstream r) /\
  store (snd (handle s q r)) = store r /\
  (forall (q' : request) (r' : redis) (e : string),
     fst (handle s q' r') = Raise e -> resolve s q' (upstream_calls r') = Raise e).
Proof.
  intros (i & Hq) Hmiss Hres.
  assert (Hneg : negative_suppressed q = true) by (destruct Hq as [-> | ->]; reflexivity).
  rewrite (handle_miss s q r JNull Hmiss Hres), Hneg.
  split; [reflexivity|]. split; [reflexivity|].
  intros q' r' e H. apply (handle_raise s q' r' e H).
Qed.

Lemma absent_result_returned_as_null_witness :
  (exists i, GetMovie "m1" = GetMovie i \/ GetMovie "m1" = GetSeries i) /\
  redis_get (redis_setex empty_redis "series_m1" 7200 sample_movie)
    (cache_key (GetMovie "m1")) = None /\
  resolve placeholder_scrapers (GetMovie "m1")
    (upstream_calls (redis_setex empty_redis "series_m1" 7200 sample_movie)) = Ret JNull /\
  (handle placeholder_scrapers (GetMovie "m1")
     (redis_setex empty_redis "series_m1" 7200 sample_movie) =
     (Ret JNull, call_upstream (redis_setex empty_redis "series_m1" 7200 sample_movie)) /\
   store (snd (handle placeholder_scrapers (GetMovie "m1")
                 (redis_setex empty_redis "series_m1" 7200 sample_movie))) =
     store (redis_setex empty_redis "series_m1" 7200 sample_movie) /\
   (forall (q' : request) (r' : redis) (e : string),
      fst (handle placeholder_scrapers q' r') = Raise e ->
      resolve placeholder_scrapers q' (upstream_calls r') = Raise e)).
Proof.
  split; [exists "m1"%string; left; reflexivity|]. split; [reflexivity|]. split; [reflexivity|].
  apply (absent_result_returned_as_null placeholder_scrapers (GetMovie "m1")
           (redis_setex empty_redis "series_m1" 7200 sample_movie));
    [exists "m1"%string; left; reflexivity | reflexivity | reflexivity].
Defined.

(* ------------------------------------------------------------------ *)
(** ** The search cache key *)

Lemma string_length_app (a b : string) :
  String.length (a ++ b) = (String.length a + String.length b)%nat.
Proof. induction a as [|x a IH]; simpl; [reflexivity | rewrite IH; reflexivity]. Qed.

Lemma string_app_cancel_l (p a b : string) : (p ++ a = p ++ b)%string -> a = b.
Proof. induction p as [|x p IH]; simpl; [auto | intros [= H]; auto]. Qed.

Lemma string_app_cancel_r (a b c : string) : (a ++ c = b ++ c)%string -> a = b.
Proof.
  revert b. induction a as [|x a IH]; intros [|y b] H; simpl in *.
  - reflexivity.
  - apply (f_equal String.length) in H.
    rewrite !string_length_app in H. simpl in H. lia.
  - apply (f_equal String.length) in H.
    rewrite !string_length_app in H. simpl in H. lia.
  - injection H as -> H. f_equal. apply IH, H.
Qed.

(** C2 (counterexample): "Batman" and "batman" on page 1 differ only in
    case, yet get different cache keys, and searching both on an empty
    cache calls the search scraper twice. *)
Lemma search_key_case_sensitive :
  search_cache_key (mkSearchRequest "Batman" (Some 1)) = "search_Batman_1"%string /\
  search_cache_key (mkSearchRequest "batman" (Some 1)) = "search_batman_1"%string /\
  search_cache_key (mkSearchRequest "Batman" (Some 1)) <>
    search_cache_key (mkSearchRequest "batman" (Some 1)) /\
  let '(_, r1) := handle placeholder_scrapers (Search (mkSearchRequest "Batman" (Some 1))) empty_redis in
  let '(_, r2) := handle placeholder_scrapers (Search (mkSearchRequest "batman" (Some 1))) r1 in
  upstream_calls r2 = 2%nat.
Proof.
  split; [reflexivity|]. split; [reflexivity|]. split.
  - vm_compute. discriminate.
  - reflexivity.
Qed.

(** C2 (amended): the Search key is ["search_" ++ query ++ "_" ++ str(page)]
    with the query exactly as received, neither trimmed nor lower-cased: for
    one page, two queries share a key only when they are the same string. *)
Theorem search_key_verbatim_query (q1 q2 : string) (pg : option Z) :
  cache_key (Search (mkSearchRequest q1 pg)) =
    ("search_" ++ q1 ++ "_" ++ str_opt_int pg)%string /\
  (cache_key (Search (mkSearchRequest q1 pg)) = cache_key (Search (mkSearchRequest q2 pg)) <->
   q1 = q2).
Proof.
  split; [reflexivity|]. split; [|intros ->; reflexivity].
  simpl. unfold search_cache_key; simpl.
  intros H. apply (string_app_cancel_l "search_") in H.
  apply (string_app_cancel_r _ _ ("_" ++ str_opt_int pg)) in H. exact H.
Qed.


(* ------------------------------------------------------------------ *)
(** ** Entity validation *)

Example strip_example : strip "  Pilot  " = "Pilot"%string.
Proof. reflexivity. Qed.

Example year_1800_rejected :
  validate_movie_base 2026 (mkMovieInput (Some "m1") (Some "T") None None (Some 1800) None None)
  = inl ["year"%string].
Proof. reflexivity. Qed.


(** C5 (counterexample): a source given with [requires_proxy=True] and no
    [is_direct] validates with both flags true. *)
Lemma proxied_source_validates_as_direct :
  exists vs,
    validate_video_source
      (mkVideoSourceInput (Some "https://cdn.example/v.mp4") None None None
         None None None None (Some true)) = inr vs /\
    requires_proxy vs = true /\ is_direct vs = true.
Proof. eexists. split; [reflexivity|]. split; reflexivity. Qed.

(** C5 (amended): [VideoSource] validation checks the url and the quality
    only; [is_direct] and [requires_proxy] are copied from the input
    (defaults [True] and [False]) and never constrain each other: changing
    them changes neither whether validation succeeds nor any other field. *)
Theorem video_source_flags_unconstrained :
  (forall (v : VideoSourceInput) (vs : VideoSource),
     validate_video_source v = inr vs ->
     is_direct vs = default true (in_is_direct v) /\
     requires_proxy vs = default false (in_requires_proxy v)) /\
  (forall (v : VideoSourceInput) (d p : bool),
     validate_video_source (with_flags v d p) =
     match validate_video_source v with
     | inr vs => inr (set_flags vs d p)
     | inl errs => inl errs
     end).
Proof.
  split.
  - intros v vs. unfold validate_video_source.
    destruct (in_url v) as [u|]; [destruct (validate_url u)|]; simpl;
      destruct (match in_quality v with Some s => parse_quality s | None => Some HD end);
      try discriminate.
    intros [= <-]. simpl. auto.
  - intros v d p. unfold validate_video_source, with_flags; simpl.
    destruct (in_url v) as [u|]; [destruct (validate_url u)|]; simpl;
      destruct (match in_quality v with Some s => parse_quality s | None => Some HD end);
      reflexivity.
Qed.

(** C6 (code bug): [validate_year] tests [if v and ...], so the year 0 is
    falsy and skips the range check: a movie with [year=0] validates.  Every
    other present year fails, on the [year] field, exactly when it is outside
    [1900, now_year + 1]. *)
Theorem movie_year_zero_accepted :
  validate_movie_base 2026 (movie_input (Some "m1") (Some "The Movie") (Some 0)) =
    inr (mkMovieBase "m1" "The Movie" None None (Some 0) None None) /\
  (forall (now_year : Z) (m : MovieInput) (y : Z),
     in_year m = Some y -> y <> 0 ->
     (In "year"%string (movie_base_errors now_year m) <-> y < 1900 \/ now_year + 1 < y)).
Proof.
  split; [reflexivity|].
  intros now_year m y Hy Hnz. unfold movie_base_errors, validate_year. rewrite Hy.
  destruct (Z.eqb_spec y 0) as [|_]; [contradiction|].
  destruct (Z.ltb_spec y 1900), (Z.ltb_spec (now_year + 1) y); simpl;
    rewrite !in_app_iff;
    destruct (in_id m), (in_title m), (validate_rating (in_rating m)); simpl;
    split; intros Hin; intuition (try lia; try discriminate).
Qed.

(** C7 (code bug): [MovieBase.title] is a plain required [str] with no
    validator, so the empty title is accepted (a missing one is rejected),
    while the sibling [EpisodeBase.validate_title] rejects empty and blank
    titles. *)
Theorem movie_empty_title_accepted :
  validate_movie_base 2026 (movie_input (Some "m1") (Some "") None) =
    inr (mkMovieBase "m1" "" None None None None None) /\
  validate_movie_base 2026 (movie_input (Some "m1") None None) = inl ["title"%string] /\
  validate_episode_title "" = None /\
  validate_episode_title "   " = None.
Proof. repeat split; reflexivity. Qed.


(* ------------------------------------------------------------------ *)
(** ** Video source ordering *)

(** The spec's example ordering, computed by the spec-side selector. *)
Example spec_selector_example :
  spec_select_sources sample_sources =
  [src_json "https://c.example/hd.mp4" "HD" true false 200;
   src_json "https://b.example/hd.mp4" "HD" false true 300;
   src_json "https://a.example/sd.mp4" "SD" true false 500].
Proof. reflexivity. Qed.

(** C8 (counterexample): when the scraper lists the spec's three sources
    as [SD direct 500; HD proxied 300; HD direct 200], [GetWatch] returns
    them in that order, not in the spec's order
    [HD direct 200; HD proxied 300; SD direct 500]. *)
Lemma watch_sources_not_ranked :
  fst (handle sample_scrapers (GetWatch "m1") empty_redis) = Ret (JArr sample_sources) /\
  fst (handle sample_scrapers (GetWatch "m1") empty_redis) <>
    Ret (JArr (spec_select_sources sample_sources)).
Proof. split; [reflexivity|]. vm_compute. discriminate. Qed.

(** C8 (amended): [get_video_sources] ranks nothing: on a miss it returns
    the list [extract_video_sources] produced, unchanged and in its order,
    and on a hit the cached list; the placeholder scraper yields [[]]. *)
Theorem watch_sources_passed_through (s : scrapers) (i : string) (r : redis) :
  fst (handle s (GetWatch i) r) =
    match redis_get r (cache_key (GetWatch i)) with
    | Some cached => Ret cached
    | None => sc_watch s (upstream_calls r) i
    end /\
  (redis_get r (cache_key (GetWatch i)) = None ->
   fst (handle placeholder_scrapers (GetWatch i) r) = Ret (JArr [])).
Proof.
  split.
  - rewrite handle_key. destruct (redis_get r (cache_key (GetWatch i))); [reflexivity|].
    simpl. destruct (sc_watch s (upstream_calls r) i); reflexivity.
  - intros Hmiss.
    rewrite (handle_miss placeholder_scrapers (GetWatch i) r (JArr []) Hmiss eq_refl).
    reflexivity.
Qed.

Lemma watch_sources_passed_through_witness :
  redis_get (redis_setex empty_redis "watch_m1" 3600 (JArr sample_sources))
    (cache_key (GetWatch "m1")) = Some (JArr sample_sources) /\
  (fst (handle sample_scrapers (GetWatch "m1")
          (redis_setex empty_redis "watch_m1" 3600 (JArr sample_sources))) =
     match redis_get (redis_setex empty_redis "watch_m1" 3600 (JArr sample_sources))
             (cache_key (GetWatch "m1")) with
     | Some cached => Ret cached
     | None => sc_watch sample_scrapers 0 "m1"
     end /\
   (redis_get (redis_setex empty_redis "watch_m1" 3600 (JArr sample_sources))
      (cache_key (GetWatch "m1")) = None ->
    fst (handle placeholder_scrapers (GetWatch "m1")
           (redis_setex empty_redis "watch_m1" 3600 (JArr sample_sources))) = Ret (JArr []))).
Proof.
  split; [reflexivity|].
  apply (watch_sources_passed_through sample_scrapers "m1"
           (redis_setex empty_redis "watch_m1" 3600 (JArr sample_sources))).
Defined.

(* ------------------------------------------------------------------ *)
(** ** Concurrent requests *)





(** Once the key holds a live entry [w], and no request is suspended, any
    schedule leaves the Redis state alone and answers every scheduled
    request with [w]. *)
Lemma run_hits (sc : nat -> Z -> outcome) (su : nat -> Z -> bool) (pg : Z)
    (l : list nat) (ts : list task) (r : redis) (w : json) :
  redis_get r (home_key pg) = Some w ->
  (forall j t, ts !! j = Some t -> t = TStart \/ t = TDone (Ret w)) ->
  let '(ts', r') := run sc su pg l ts r in
  r' = r /\ length ts' = length ts /\
  (forall j t, ts' !! j = Some t -> t = TStart \/ t = TDone (Ret w)) /\
  (forall j, ts !! j = Some (TDone (Ret w)) -> ts' !! j = Some (TDone (Ret w))) /\
  (forall j, In j l -> (j < length ts)%nat -> ts' !! j = Some (TDone (Ret w))).
Proof.
  intros Hhit. revert ts. induction l as [|i l IH]; intros ts Hinv; simpl.
  - split; [reflexivity|]. split; [reflexivity|]. split; [exact Hinv|].
    split; [auto | intros j []].
  - unfold step. destruct (ts !! i) as [t|] eqn:Hti.
    + assert (Hst : step_task sc su pg t r = (TDone (Ret w), r)).
      { destruct (Hinv i t Hti) as [-> | ->]; cbn [step_task];
          [rewrite Hhit|]; reflexivity. }
      rewrite Hst.
      assert (Hlt : (i < length ts)%nat) by (apply lookup_lt_is_Some; rewrite Hti; eauto).
      set (ts1 := <[i := TDone (Ret w)]> ts).
      assert (Hinv1 : forall j t, ts1 !! j = Some t -> t = TStart \/ t = TDone (Ret w)).
      { intros j t' Hj. unfold ts1 in Hj. destruct (decide (i = j)) as [<-|Hne].
        - rewrite list_lookup_insert_eq in Hj by exact Hlt. injection Hj as <-. right; reflexivity.
        - rewrite list_lookup_insert_ne in Hj by exact Hne. exact (Hinv j t' Hj). }
      assert (Hi1 : ts1 !! i = Some (TDone (Ret w)))
        by (apply list_lookup_insert_eq; exact Hlt).
      assert (Hlen1 : length ts1 = length ts) by apply length_insert.
      pose proof (IH ts1 Hinv1) as IH1.
      destruct (run sc su pg l ts1 r) as [ts' r'].
      destruct IH1 as (-> & Hlen & Hinv' & Hkeep & Hdone).
      split; [reflexivity|]. split; [congruence|]. split; [exact Hinv'|]. split.
      * intros j Hj. apply Hkeep. unfold ts1. destruct (decide (i = j)) as [<-|Hne].
        -- exact Hi1.
        -- rewrite list_lookup_insert_ne by exact Hne. exact Hj.
      * intros j [<- | Hj] Hjl; [exact (Hkeep i Hi1)|]. apply Hdone; [exact Hj | congruence].
    + pose proof (IH ts Hinv) as IH1.
      destruct (run sc su pg l ts r) as [ts' r'].
      destruct IH1 as (Hr & Hlen & Hinv' & Hkeep & Hdone).
      split; [exact Hr|]. split; [exact Hlen|]. split; [exact Hinv'|]. split; [exact Hkeep|].
      intros j [<- | Hj] Hjl; [|exact (Hdone j Hj Hjl)].
      apply lookup_lt_is_Some in Hjl. rewrite Hti in Hjl. destruct Hjl as [? [=]].
Qed.




(* ------------------------------------------------------------------ *)
(** ** Distinct requests have distinct cache keys *)

Lemma string_app_String (c : ascii) (x y : string) :
  (String c x ++ y)%string = String c (x ++ y)%string.
Proof. reflexivity. Qed.

Lemma string_app_empty (y : string) : ("" ++ y)%string = y.
Proof. reflexivity. Qed.

Lemma char_free_app (c : ascii) (a b : string) :
  char_free c (a ++ b) = char_free c a && char_free c b.
Proof.
  induction a as [|x a IH]; [reflexivity|].
  rewrite string_app_String. simpl. rewrite IH. apply andb_assoc.
Qed.

Lemma pretty_N_char_int_char (x : N) : int_char (pretty_N_char x) = true.
Proof. unfold pretty_N_char. repeat case_match; reflexivity. Qed.

Lemma int_char_char_free (c d : ascii) : int_char c = false -> int_char d = true ->
  negb (Ascii.eqb c d) = true.
Proof.
  intros Hc Hd. destruct (Ascii.eqb_spec c d) as [->|]; [congruence | reflexivity].
Qed.

Lemma pretty_N_go_char_free (c : ascii) (x : N) (s : string) :
  int_char c = false -> char_free c s = true -> char_free c (pretty_N_go x s) = true.
Proof.
  intros Hc. revert s. induction (N.lt_wf_0 x) as [x _ IH]; intros s Hs.
  assert (x = 0 \/ 0 < x)%N as [->|Hx] by lia.
  - rewrite pretty_N_go_0. exact Hs.
  - rewrite pretty_N_go_step by exact Hx. apply IH.
    + apply N.div_lt; lia.
    + simpl. rewrite (int_char_char_free c _ Hc (pretty_N_char_int_char _)). exact Hs.
Qed.

(** [str(z)] contains no character outside [0-9] and ['-']. *)
Lemma str_int_char_free (c : ascii) (z : Z) :
  int_char c = false -> char_free c (str_int z) = true.
Proof.
  intros Hc. unfold str_int. cbv [pretty pretty_Z pretty_positive pretty_N].
  destruct z as [|p|p].
  - simpl. rewrite andb_true_r. apply (int_char_char_free c "0"%char Hc). reflexivity.
  - case_decide; [discriminate|].
    apply pretty_N_go_char_free; [exact Hc | reflexivity].
  - case_decide; [discriminate|].
    rewrite string_app_String, string_app_empty. cbn [char_free].
    rewrite (int_char_char_free c "-"%char Hc) by reflexivity. simpl andb.
    apply pretty_N_go_char_free; [exact Hc | reflexivity].
Qed.

Lemma str_opt_int_no_underscore (o : option Z) : char_free "_"%char (str_opt_int o) = true.
Proof. destruct o as [z|]; [apply str_int_char_free; reflexivity | reflexivity]. Qed.

Lemma str_opt_int_inj (o1 o2 : option Z) : str_opt_int o1 = str_opt_int o2 -> o1 = o2.
Proof.
  assert (HN : forall z, str_int z <> "None"%string).
  { intros z H. pose proof (str_int_char_free "N"%char z eq_refl) as Hf.
    rewrite H in Hf. discriminate. }
  destruct o1 as [z1|], o2 as [z2|]; simpl; intros H.
  - f_equal. apply (inj pretty), H.
  - exfalso. exact (HN z1 H).
  - exfalso. exact (HN z2 (eq_sym H)).
  - reflexivity.
Qed.

(** Splitting at the last ['_'] when the suffixes have none. *)
Lemma split_last_underscore (a b s t : string) :
  char_free "_"%char s = true -> char_free "_"%char t = true ->
  (a ++ String "_"%char s = b ++ String "_"%char t)%string -> a = b /\ s = t.
Proof.
  intros Hs Ht. revert b. induction a as [|x a IH]; intros [|y b] H;
    rewrite ?string_app_String, ?string_app_empty in H.
  - injection H as ->. auto.
  - injection H as <- H. subst s. rewrite char_free_app in Hs. simpl in Hs.
    rewrite andb_false_r in Hs. discriminate.
  - injection H as -> H. subst t. rewrite char_free_app in Ht. simpl in Ht.
    rewrite andb_false_r in Ht. discriminate.
  - injection H as -> H. destruct (IH b H) as [-> ->]. auto.
Qed.

(** The handlers' keys never collide: two requests with the same cache key
    are the same request, so no route ever reads another route's entry or
    another parameter's entry. *)
Theorem cache_key_injective (q1 q2 : request) :
  cache_key q1 = cache_key q2 -> q1 = q2.
Proof.
  destruct q1 as [p1|[s1 o1]|i1|i1|i1|c1 p1], q2 as [p2|[s2 o2]|i2|i2|i2|c2 p2];
    simpl; unfold search_cache_key; simpl; intros H;
    rewrite ?string_app_String, ?string_app_empty in H;
    try discriminate H.
  - repeat (injection H as H); f_equal. apply (inj pretty), H.
  - repeat (injection H as H).
    destruct (split_last_underscore s1 s2 _ _ (str_opt_int_no_underscore o1)
                (str_opt_int_no_underscore o2) H) as [-> Ho].
    apply str_opt_int_inj in Ho. subst. reflexivity.
  - repeat (injection H as H). subst. reflexivity.
  - repeat (injection H as H). subst. reflexivity.
  - repeat (injection H as H). subst. reflexivity.
  - repeat (injection H as H).
    destruct (split_last_underscore c1 c2 _ _ (str_opt_int_no_underscore (Some p1))
                (str_opt_int_no_underscore (Some p2)) H) as [-> Hp].
    simpl in Hp. unfold str_int in Hp. apply (inj (pretty : Z -> string)) in Hp.
    subst. reflexivity.
Qed.


(* ------------------------------------------------------------------ *)
(** ** Further cache behaviour of the handlers *)

Lemma handle_write_frame (s : scrapers) (q : request) (r : redis) (k : string) :
  k <> cache_key q ->
  store (snd (handle s q r)) !! k = store r !! k /\ clock (snd (handle s q r)) = clock r.
Proof.
  intros Hk. rewrite handle_key.
  destruct (redis_get r (cache_key q)); [auto|].
  destruct (resolve s q (upstream_calls r)) as [v|e]; [|auto].
  destruct (negative_suppressed q && negb (truthy v)); [auto|].
  simpl. rewrite lookup_insert_ne by congruence. auto.
Qed.

(** A request reads and writes only its own key.  Run on two Redis states
    that agree on that key's entry, the clock and the upstream-call count
    (whatever their other entries), it gives the same answer and leaves
    the same entry for its key; and every other entry of the store, and
    the clock, are as they were. *)
Theorem handle_frame (s : scrapers) (q : request) (r r2 : redis) :
  store r2 !! cache_key q = store r !! cache_key q ->
  clock r2 = clock r ->
  upstream_calls r2 = upstream_calls r ->
  fst (handle s q r2) = fst (handle s q r) /\
  store (snd (handle s q r2)) !! cache_key q = store (snd (handle s q r)) !! cache_key q /\
  (forall k, k <> cache_key q -> store (snd (handle s q r)) !! k = store r !! k) /\
  clock (snd (handle s q r)) = clock r.
Proof.
  intros Hk Hc Hu.
  assert (Hg : redis_get r2 (cache_key q) = redis_get r (cache_key q))
    by (unfold redis_get; rewrite Hk, Hc; reflexivity).
  split; [|split; [|split]].
  - rewrite !handle_key, Hg, Hu. destruct (redis_get r (cache_key q)); [reflexivity|].
    destruct (resolve s q (upstream_calls r)); reflexivity.
  - rewrite !handle_key, Hg, Hu. destruct (redis_get r (cache_key q)); [exact Hk|].
    destruct (resolve s q (upstream_calls r)) as [v|e]; [|exact Hk].
    destruct (negative_suppressed q && negb (truthy v)); [exact Hk|].
    simpl. rewrite !lookup_insert_eq, Hc. reflexivity.
  - intros k Hne. apply (handle_write_frame s q r k Hne).
  - rewrite handle_key. destruct (redis_get r (cache_key q)); [reflexivity|].
    destruct (resolve s q (upstream_calls r)) as [v|e]; [|reflexivity].
    destruct (negative_suppressed q && negb (truthy v)); reflexivity.
Qed.

Lemma handle_frame_witness :
  store empty_redis !! cache_key (GetHome 1) =
    store (redis_setex empty_redis "movie_m2" 7200 sample_movie) !! cache_key (GetHome 1) /\
  fst (handle placeholder_scrapers (GetHome 1) empty_redis) =
    fst (handle placeholder_scrapers (GetHome 1)
           (redis_setex empty_redis "movie_m2" 7200 sample_movie)) /\
  store (snd (handle placeholder_scrapers (GetHome 1) empty_redis)) !! cache_key (GetHome 1) =
    store (snd (handle placeholder_scrapers (GetHome 1)
                  (redis_setex empty_redis "movie_m2" 7200 sample_movie)))
      !! cache_key (GetHome 1) /\
  store (snd (handle placeholder_scrapers (GetHome 1)
                (redis_setex empty_redis "movie_m2" 7200 sample_movie))) !! "movie_m2"%string =
    Some (sample_movie, 7200).
Proof.
  assert (Hk : store empty_redis !! cache_key (GetHome 1) =
    store (redis_setex empty_redis "movie_m2" 7200 sample_movie) !! cache_key (GetHome 1))
    by reflexivity.
  destruct (handle_frame placeholder_scrapers (GetHome 1)
              (redis_setex empty_redis "movie_m2" 7200 sample_movie) empty_redis
              Hk eq_refl eq_refl) as (Ho & Hs & Hw & _).
  split; [exact Hk|]. split; [exact Ho|]. split; [exact Hs|].
  rewrite Hw by (vm_compute; discriminate). reflexivity.
Defined.

(** Every request makes at most one upstream call: none when the key has a
    live entry, exactly one otherwise. *)
Theorem handle_upstream_calls (s : scrapers) (q : request) (r : redis) :
  upstream_calls (snd (handle s q r)) =
  (upstream_calls r + match redis_get r (cache_key q) with Some _ => 0 | None => 1 end)%nat.
Proof.
  rewrite handle_key. destruct (redis_get r (cache_key q)); simpl; [lia|].
  destruct (resolve s q (upstream_calls r)) as [v|e]; simpl; [|lia].
  destruct (negative_suppressed q && negb (truthy v)); simpl; lia.
Qed.

(** An exception raised by the scraper reaches the caller and is not
    cached: the store is unchanged and the next request for the key calls
    the scraper again. *)
Theorem scraper_error_not_cached (s : scrapers) (q : request) (r : redis) (e : string) :
  redis_get r (cache_key q) = None ->
  resolve s q (upstream_calls r) = Raise e ->
  let '(o, r') := handle s q r in
  o = Raise e /\ store r' = store r /\
  upstream_calls (snd (handle s q r')) = S (upstream_calls r').
Proof.
  intros Hmiss Hres. rewrite handle_key, Hmiss, Hres. simpl.
  split; [reflexivity|]. split; [reflexivity|].
  rewrite handle_upstream_calls. rewrite redis_get_call_upstream, Hmiss. simpl. lia.
Qed.

Lemma scraper_error_not_cached_witness :
  redis_get empty_redis (cache_key (GetHome 1)) = None /\
  resolve failing_scrapers (GetHome 1) (upstream_calls empty_redis) = Raise "timeout" /\
  (let '(o, r') := handle failing_scrapers (GetHome 1) empty_redis in
   o = Raise "timeout" /\ store r' = store empty_redis /\
   upstream_calls (snd (handle failing_scrapers (GetHome 1) r')) = S (upstream_calls r')).
Proof.
  split; [reflexivity|]. split; [reflexivity|].
  apply (scraper_error_not_cached failing_scrapers (GetHome 1) empty_redis "timeout");
    reflexivity.
Defined.

(** Read-through for every route: when a miss stores its result (always
    for home, search and category; for movie, series and watch when the
    result is truthy), the same request made at most the route's TTL
    later returns that result with no upstream call. *)
Theorem read_through_all_routes (s : scrapers) (q : request) (r : redis) (v : json) (dt : Z) :
  redis_get r (cache_key q) = None ->
  resolve s q (upstream_calls r) = Ret v ->
  negative_suppressed q = false \/ truthy v = true ->
  0 <= dt <= ttl_table q ->
  let '(o1, r1) := handle s q r in
  handle s q (advance dt r1) = (Ret v, advance dt r1) /\ o1 = Ret v.
Proof.
  intros Hmiss Hres Hc Hdt. rewrite (handle_miss s q r v Hmiss Hres).
  assert (Hf : negative_suppressed q && negb (truthy v) = false)
    by (destruct Hc as [H | H]; rewrite H; [reflexivity | apply andb_false_r]).
  rewrite Hf.
  split; [|reflexivity].
  apply handle_hit. unfold redis_get, advance, redis_setex; simpl.
  rewrite lookup_insert_eq.
  destruct (Z.leb_spec (clock r + dt) (clock r + ttl_table q)); [reflexivity | lia].
Qed.

Lemma read_through_all_routes_witness :
  redis_get empty_redis (cache_key (GetCategory "action" 1)) = None /\
  resolve placeholder_scrapers (GetCategory "action" 1) (upstream_calls empty_redis) =
    Ret (JObj [("items", JArr []); ("total_pages", JNum 0)]) /\
  (negative_suppressed (GetCategory "action" 1) = false \/
   truthy (JObj [("items", JArr []); ("total_pages", JNum 0)]) = true) /\
  0 <= 3600 <= ttl_table (GetCategory "action" 1) /\
  (let '(o1, r1) := handle placeholder_scrapers (GetCategory "action" 1) empty_redis in
   handle placeholder_scrapers (GetCategory "action" 1) (advance 3600 r1) =
     (Ret (JObj [("items", JArr []); ("total_pages", JNum 0)]), advance 3600 r1) /\
   o1 = Ret (JObj [("items", JArr []); ("total_pages", JNum 0)])).
Proof.
  split; [reflexivity|]. split; [reflexivity|]. split; [left; reflexivity|].
  split; [simpl; lia|].
  apply (read_through_all_routes placeholder_scrapers (GetCategory "action" 1) empty_redis);
    [reflexivity | reflexivity | left; reflexivity | simpl; lia].
Defined.





Lemma run_app (sc : nat -> Z -> outcome) (su : nat -> Z -> bool) (pg : Z)
    (l1 l2 : list nat) (ts : list task) (r : redis) :
  run sc su pg (l1 ++ l2) ts r =
  let '(ts1, r1) := run sc su pg l1 ts r in run sc su pg l2 ts1 r1.
Proof.
  revert ts r. induction l1 as [|i l1 IH]; intros ts r; simpl; [reflexivity|].
  destruct (step sc su pg i ts r) as [ts' r']. apply IH.
Qed.

Lemma in_serial_schedule (i : nat) (l : list nat) : In i (serial_schedule l) <-> In i l.
Proof.
  unfold serial_schedule. rewrite in_flat_map. split.
  - intros (j & Hj & [-> | [-> | []]]); exact Hj.
  - intros Hi. exists i. split; [exact Hi | left; reflexivity].
Qed.

(** Requests that do not overlap in time share one resolution: [n + 1]
    [GetHome pg] requests run one after the other on a cache without a
    live entry make a single upstream call, and when the scraper answers
    [v] every one of them returns [v]; this holds whether or not the
    scraper suspends. *)
Theorem serial_requests_one_resolution
    (sc : nat -> Z -> outcome) (su : nat -> Z -> bool) (pg : Z) (r : redis) (n : nat)
    (v : json) :
  redis_get r (home_key pg) = None ->
  sc (upstream_calls r) pg = Ret v ->
  let '(ts', r') := run sc su pg (serial_schedule (seq 0 (S n))) (replicate (S n) TStart) r in
  upstream_calls r' = S (upstream_calls r) /\
  (forall i, (i <= n)%nat -> ts' !! i = Some (TDone (Ret v))).
Proof.
  intros Hmiss Hres.
  change (serial_schedule (seq 0 (S n))) with ([0%nat; 0%nat] ++ serial_schedule (seq 1 n)).
  rewrite run_app.
  set (ts1 := TDone (Ret v) :: replicate n TStart).
  set (r1 := redis_setex (call_upstream r) (home_key pg) 3600 v).
  assert (Hfirst : run sc su pg [0%nat; 0%nat] (replicate (S n) TStart) r = (ts1, r1)).
  { simpl. unfold step. simpl. rewrite Hmiss.
    destruct (su (upstream_calls r) pg); simpl; unfold finish; rewrite Hres; reflexivity. }
  rewrite Hfirst.
  assert (Hhit : redis_get r1 (home_key pg) = Some v).
  { apply redis_get_setex_eq. lia. }
  assert (Hinv : forall j t, ts1 !! j = Some t -> t = TStart \/ t = TDone (Ret v)).
  { intros [|j] t Hj; simpl in Hj.
    - injection Hj as <-. right. reflexivity.
    - apply lookup_replicate in Hj. destruct Hj as [-> _]. left. reflexivity. }
  pose proof (run_hits sc su pg (serial_schedule (seq 1 n)) ts1 r1 v Hhit Hinv) as H.
  destruct (run sc su pg (serial_schedule (seq 1 n)) ts1 r1) as [ts' r'].
  destruct H as (-> & _ & _ & Hkeep & Hdone). split; [reflexivity|].
  intros [|i] Hi.
  - apply Hkeep. reflexivity.
  - apply Hdone.
    + apply in_serial_schedule, in_seq. lia.
    + simpl. rewrite length_replicate. lia.
Qed.

Lemma serial_requests_one_resolution_witness :
  redis_get empty_redis (home_key 1) = None /\
  sc_home placeholder_scrapers (upstream_calls empty_redis) 1 =
    Ret (JObj [("sections", JArr []); ("featured", JArr [])]) /\
  (let '(ts', r') := run (sc_home placeholder_scrapers) io_suspends 1
                       (serial_schedule (seq 0 3)) (replicate 3 TStart) empty_redis in
   upstream_calls r' = S (upstream_calls empty_redis) /\
   (forall i, (i <= 2)%nat ->
      ts' !! i = Some (TDone (Ret (JObj [("sections", JArr []); ("featured", JArr [])]))))).
Proof.
  split; [reflexivity|]. split; [reflexivity|].
  apply (serial_requests_one_resolution (sc_home placeholder_scrapers) io_suspends 1
           empty_redis 2); reflexivity.
Defined.


Lemma cache_key_injective_witness :
  cache_key (GetCategory "a_1" 2) = cache_key (GetCategory "a_1" 2) /\
  GetCategory "a_1" 2 = GetCategory "a_1" 2.
Proof.
  split; [reflexivity|]. apply cache_key_injective. reflexivity.
Defined.

(* ------------------------------------------------------------------ *)
(** ** [str.strip()] *)

Lemma string_app_nil_r (s : string) : (s ++ "")%string = s.
Proof. induction s as [|c s IH]; [reflexivity | rewrite string_app_String, IH; reflexivity]. Qed.

Lemma string_app_assoc (a b c : string) : (a ++ (b ++ c) = (a ++ b) ++ c)%string.
Proof.
  induction a as [|x a IH]; [reflexivity|].
  rewrite !string_app_String, IH. reflexivity.
Qed.

Lemma rev_string_app (a b : string) :
  rev_string (a ++ b) = (rev_string b ++ rev_string a)%string.
Proof.
  induction a as [|x a IH].
  - rewrite string_app_empty. simpl. rewrite string_app_nil_r. reflexivity.
  - rewrite string_app_String. simpl. rewrite IH. apply eq_sym, string_app_assoc.
Qed.

Lemma rev_string_involutive (s : string) : rev_string (rev_string s) = s.
Proof.
  induction s as [|c s IH]; [reflexivity|].
  simpl. rewrite rev_string_app, IH. reflexivity.
Qed.

Lemma lstrip_idem (s : string) : lstrip (lstrip s) = lstrip s.
Proof.
  induction s as [|c s IH]; [reflexivity|].
  simpl. destruct (is_space c) eqn:Hc; [exact IH|]. simpl. rewrite Hc. reflexivity.
Qed.

Lemma lstrip_app (a b : string) :
  lstrip (a ++ b) = match lstrip a with "" => lstrip b | z => (z ++ b)%string end.
Proof.
  induction a as [|c a IH]; [reflexivity|].
  rewrite string_app_String. simpl. destruct (is_space c); [exact IH | reflexivity].
Qed.

Lemma lstrip_length (s : string) : (String.length (lstrip s) <= String.length s)%nat.
Proof.
  induction s as [|c s IH]; simpl; [lia|]. destruct (is_space c); simpl; lia.
Qed.

Lemma lstrip_fixed_head (c : ascii) (y : string) :
  lstrip (String c y) = String c y -> is_space c = false.
Proof.
  simpl. destruct (is_space c); [|reflexivity]. intros H.
  pose proof (lstrip_length y) as Hl. rewrite H in Hl. simpl in Hl. lia.
Qed.

Lemma rstrip_cons (c : ascii) (y : string) :
  is_space c = false -> rstrip (String c y) = String c (rstrip y).
Proof.
  intros Hc. unfold rstrip. simpl. rewrite lstrip_app.
  destruct (lstrip (rev_string y)) as [|d z] eqn:Hz.
  - cbn [lstrip]. rewrite Hc. reflexivity.
  - rewrite rev_string_app. reflexivity.
Qed.

Lemma lstrip_rstrip (y : string) : lstrip y = y -> lstrip (rstrip y) = rstrip y.
Proof.
  destruct y as [|c y]; [reflexivity|]. intros H.
  apply lstrip_fixed_head in H. rewrite (rstrip_cons c y H). simpl. rewrite H. reflexivity.
Qed.

Lemma rstrip_idem (y : string) : rstrip (rstrip y) = rstrip y.
Proof. unfold rstrip. rewrite rev_string_involutive, lstrip_idem. reflexivity. Qed.

(** [strip] is idempotent: a stripped string has nothing left to strip. *)
Lemma strip_idem (s : string) : strip (strip s) = strip s.
Proof.
  change (strip s) with (rstrip (lstrip s)). change (strip (rstrip (lstrip s)))
    with (rstrip (lstrip (rstrip (lstrip s)))).
  rewrite (lstrip_rstrip (lstrip s) (lstrip_idem s)). apply rstrip_idem.
Qed.

(* ------------------------------------------------------------------ *)
(** ** Invariants of the validated models *)

(** A validated episode has the stripped raw title, which is non-empty and
    stays the same when stripped again; its episode number and its season
    number (1 when not given) are at least 1. *)
Theorem episode_invariants (e : EpisodeInput) (ep : EpisodeBase) :
  validate_episode e = inr ep ->
  (exists t, ep_in_title e = Some t /\ ep_title ep = strip t) /\
  ep_title ep <> ""%string /\ strip (ep_title ep) = ep_title ep /\
  1 <= episode_number ep /\ 1 <= season_number ep /\
  (ep_in_season_number e = None -> season_number ep = 1).
Proof.
  unfold validate_episode.
  destruct (episode_errors e) eqn:Herr; [|discriminate].
  destruct (ep_in_id e) as [i|]; [|discriminate].
  destruct (ep_in_title e) as [t|] eqn:Ht; [|discriminate].
  destruct (validate_episode_title t) as [t'|] eqn:Hv; [|discriminate].
  destruct (ep_in_episode_number e) as [n|] eqn:Hn; [|discriminate].
  intros [= <-]. simpl.
  unfold validate_episode_title in Hv.
  destruct (String.eqb t "" || String.eqb (strip t) "") eqn:Hb; [discriminate|].
  injection Hv as <-. apply orb_false_iff in Hb as [_ Hb].
  unfold episode_errors in Herr. rewrite Ht, Hn in Herr.
  unfold validate_episode_title in Herr.
  split; [exists t; auto|].
  split; [intros H; rewrite H in Hb; discriminate|].
  split; [apply strip_idem|].
  destruct (ep_in_id e); simpl in Herr; [|discriminate].
  destruct (String.eqb t "" || String.eqb (strip t) ""); simpl in Herr; [discriminate|].
  destruct (Z.leb_spec 1 n); simpl in Herr; [|discriminate].
  destruct (Z.leb_spec 1 (default 1 (ep_in_season_number e))); simpl in Herr; [|discriminate].
  split; [lia|]. split; [lia|]. intros Hs. rewrite Hs. reflexivity.
Qed.


Lemma In_single_if (b : bool) (x y : string) :
  In x (if b then [] else [y]) <-> b = false /\ x = y.
Proof. destruct b; simpl; intuition congruence. Qed.

Lemma In_single_opt {A} (o : option A) (x y : string) :
  In x (match o with Some _ => [] | None => [y] end) <-> o = None /\ x = y.
Proof. destruct o; simpl; intuition congruence. Qed.

Lemma validate_rating_bounds (v : option Q) :
  validate_rating v = true -> forall x, v = Some x -> (0 <= x /\ x <= 10)%Q.
Proof.
  intros H x ->. simpl in H. apply andb_true_iff in H as [H1 H2].
  split; apply Qle_bool_iff; assumption.
Qed.

Lemma validate_ge1_bound (v : option Z) :
  validate_ge1 v = true -> forall n, v = Some n -> 1 <= n.
Proof. intros H n ->. simpl in H. lia. Qed.

Lemma validate_year_end_false (st e : option Z) :
  validate_year_end st e = false <->
  exists a b, st = Some a /\ e = Some b /\ a <> 0 /\ b <> 0 /\ b < a.
Proof.
  unfold validate_year_end. split.
  - destruct e as [b|], st as [a|]; try discriminate.
    destruct (Z.eqb_spec b 0), (Z.eqb_spec a 0); simpl; try discriminate.
    destruct (Z.ltb_spec b a); simpl; [|discriminate]. intros _. exists a, b. auto.
  - intros (a & b & -> & -> & Ha & Hb & Hlt).
    destruct (Z.eqb_spec b 0), (Z.eqb_spec a 0); try contradiction.
    simpl. destruct (Z.ltb_spec b a); [reflexivity | lia].
Qed.

(** A validated series has a start year no later than its end year when
    both are given and non-zero, a rating in [0, 10], and season and
    episode totals of at least 1 when given. *)
Theorem series_invariants (m : SeriesInput) (sb : SeriesBase) :
  validate_series_base m = inr sb ->
  (forall a b, year_start sb = Some a -> year_end sb = Some b -> a <> 0 -> b <> 0 -> a <= b) /\
  (forall x, se_rating sb = Some x -> (0 <= x /\ x <= 10)%Q) /\
  (forall n, total_seasons sb = Some n -> 1 <= n) /\
  (forall n, total_episodes sb = Some n -> 1 <= n).
Proof.
  unfold validate_series_base.
  destruct (series_errors m) eqn:Herr; [|discriminate].
  destruct (se_in_id m) as [i|] eqn:Hi; [|discriminate].
  destruct (se_in_title m) as [t|] eqn:Ht; [|discriminate].
  intros [= <-]. simpl. unfold series_errors in Herr. rewrite Hi, Ht in Herr.
  simpl in Herr.
  destruct (validate_year_end (se_in_year_start m) (se_in_year_end m)) eqn:Hy; [|discriminate].
  destruct (validate_rating (se_in_rating m)) eqn:Hr; [|discriminate].
  destruct (validate_ge1 (se_in_total_seasons m)) eqn:Hs; [|discriminate].
  destruct (validate_ge1 (se_in_total_episodes m)) eqn:He; [|discriminate].
  split; [|split; [|split]].
  - intros a b Ha Hb Ha0 Hb0.
    destruct (Z.le_gt_cases a b) as [|Hlt]; [assumption|].
    assert (validate_year_end (se_in_year_start m) (se_in_year_end m) = false) as Hf
      by (apply validate_year_end_false; exists a, b; repeat split; auto; lia).
    congruence.
  - apply validate_rating_bounds; assumption.
  - apply validate_ge1_bound; assumption.
  - apply validate_ge1_bound; assumption.
Qed.

Lemma series_invariants_witness :
  validate_series_base
    (mkSeriesInput (Some "s1") (Some "Show") None None (Some 2019) (Some 2021)
       (Some 8.5%Q) (Some 2) (Some 20)) =
    inr (mkSeriesBase "s1" "Show" None None (Some 2019) (Some 2021)
       (Some 8.5%Q) (Some 2) (Some 20)) /\
  2019 <= 2021.
Proof.
  split; [reflexivity|].
  apply (proj1 (series_invariants
    (mkSeriesInput (Some "s1") (Some "Show") None None (Some 2019) (Some 2021)
       (Some 8.5%Q) (Some 2) (Some 20))
    (mkSeriesBase "s1" "Show" None None (Some 2019) (Some 2021)
       (Some 8.5%Q) (Some 2) (Some 20)) eq_refl)); simpl; congruence || lia.
Defined.

(** The series is rejected on [year_end] exactly when both years are
    given, both are non-zero, and the end year is before the start year;
    a zero or absent year skips the order check. *)
Theorem series_year_end_error_iff (m : SeriesInput) :
  In "year_end"%string (series_errors m) <->
  exists a b, se_in_year_start m = Some a /\ se_in_year_end m = Some b /\
              a <> 0 /\ b <> 0 /\ b < a.
Proof.
  rewrite <- validate_year_end_false. unfold series_errors.
  rewrite !in_app_iff, !In_single_if, !In_single_opt.
  intuition (try discriminate).
Qed.

Lemma validate_episode_title_none (t : string) :
  validate_episode_title t = None <-> strip t = ""%string.
Proof.
  unfold validate_episode_title.
  destruct (String.eqb_spec t "") as [->|_]; [simpl; split; reflexivity|].
  destruct (String.eqb_spec (strip t) ""); simpl; split; congruence.
Qed.

(** The episode is rejected on [title] exactly when the title is missing
    or strips to the empty string. *)
Theorem episode_title_error_iff (e : EpisodeInput) :
  In "title"%string (episode_errors e) <->
  ep_in_title e = None \/ exists t, ep_in_title e = Some t /\ strip t = ""%string.
Proof.
  unfold episode_errors. rewrite !in_app_iff, !In_single_if, !In_single_opt.
  destruct (ep_in_title e) as [t|].
  - pose proof (validate_episode_title_none t) as Hn.
    destruct (validate_episode_title t).
    + assert (strip t <> ""%string) as Hs by (intros H; apply Hn in H; discriminate).
      clear Hn. split.
      * intros [[_ H]|[H|[H|[_ H]]]]; try discriminate; [contradiction H|].
        destruct (ep_in_episode_number e) as [n|]; [destruct (1 <=? n)|];
          simpl in H; intuition discriminate.
      * intros [H|(t' & [= <-] & H)]; [discriminate | contradiction].
    + simpl. split; [intros _; right; exists t; split; [reflexivity | apply Hn; reflexivity]|].
      intros _. tauto.
  - simpl. intuition.
Qed.

Lemma episode_invariants_witness :
  validate_episode (mkEpisodeInput (Some "e1") (Some "  Pilot ") (Some 1) None None None) =
    inr (mkEpisodeBase "e1" "Pilot" 1 1 None None) /\
  strip "Pilot" = "Pilot"%string.
Proof.
  split; [vm_compute; reflexivity|].
  apply (episode_invariants
    (mkEpisodeInput (Some "e1") (Some "  Pilot ") (Some 1) None None None)
    (mkEpisodeBase "e1" "Pilot" 1 1 None None)). vm_compute. reflexivity.
Defined.

(** A subtitle validates exactly when its language is one of the nine
    allowed codes and a url is given. *)
Theorem subtitle_valid_iff (v : SubtitleInput) :
  (exists s, validate_subtitle v = inr s) <->
  exists l u, sub_in_language v = Some l /\ sub_in_url v = Some u /\ In l valid_languages.
Proof.
  unfold validate_subtitle, validate_language.
  destruct (sub_in_language v) as [l|]; [|split; [intros [s Hs]; discriminate | intros (? & ? & Hn & _); discriminate]].
  destruct (existsb (String.eqb l) valid_languages) eqn:Hl.
  - apply existsb_exists in Hl as (l' & Hin & Heq). apply String.eqb_eq in Heq as <-.
    destruct (sub_in_url v) as [u|].
    + split; [intros _; exists l, u; auto | intros _; eexists; reflexivity].
    + split; [intros [s Hs]; discriminate | intros (? & ? & _ & Hn & _); discriminate].
  - split; [intros [s Hs]; destruct (sub_in_url v); discriminate|].
    intros (l' & u & [= <-] & _ & Hin).
    assert (existsb (String.eqb l) valid_languages = true) as Ht
      by (apply existsb_exists; exists l; split; [exact Hin | apply String.eqb_refl]).
    congruence.
Qed.

(** A validated video source keeps the given url, which starts with
    [http://], [https://] or [//]; its quality is the enum value of the
    given string ([HD] when absent) and its type defaults to [video/mp4]. *)
Theorem video_source_invariants (v : VideoSourceInput) (vs : VideoSource) :
  validate_video_source v = inr vs ->
  in_url v = Some (url vs) /\
  (String.prefix "http://" (url vs) || String.prefix "https://" (url vs) ||
   String.prefix "//" (url vs)) = true /\
  quality_value (quality vs) = default "HD"%string (in_quality v) /\
  type vs = default "video/mp4"%string (in_type v).
Proof.
  unfold validate_video_source.
  destruct (in_url v) as [u|]; [|discriminate].
  destruct (validate_url u) eqn:Hu; [|discriminate].
  destruct (in_quality v) as [qs|] eqn:Hq.
  - destruct (parse_quality qs) as [q|] eqn:Hp; [|discriminate].
    intros [= <-]. simpl.
    unfold validate_url in Hu. apply andb_true_iff in Hu as [_ Hu].
    split; [reflexivity|]. split; [exact Hu|]. split; [|reflexivity].
    unfold parse_quality in Hp.
    destruct (String.eqb_spec qs "SD"); [injection Hp as <-; subst; reflexivity|].
    destruct (String.eqb_spec qs "HD"); [injection Hp as <-; subst; reflexivity|].
    destruct (String.eqb_spec qs "FHD"); [injection Hp as <-; subst; reflexivity|].
    destruct (String.eqb_spec qs "UHD"); [injection Hp as <-; subst; reflexivity|].
    discriminate.
  - intros [= <-]. simpl.
    unfold validate_url in Hu. apply andb_true_iff in Hu as [_ Hu]. auto.
Qed.

Lemma video_source_invariants_witness :
  validate_video_source
    (mkVideoSourceInput (Some "//cdn/v.mp4") (Some "FHD") None None None None None None None) =
    inr (mkVideoSource "//cdn/v.mp4" FHD "video/mp4" None None None None true false) /\
  quality_value FHD = "FHD"%string.
Proof.
  split; [reflexivity|].
  apply (video_source_invariants
    (mkVideoSourceInput (Some "//cdn/v.mp4") (Some "FHD") None None None None None None None)
    (mkVideoSource "//cdn/v.mp4" FHD "video/mp4" None None None None true false)).
  reflexivity.
Defined.

(** A validated movie has a rating in [0, 10] when given, and a year that
    is 0 or in [1900, now_year + 1] when given. *)
Theorem movie_base_invariants (now_year : Z) (m : MovieInput) (mb : MovieBase) :
  validate_movie_base now_year m = inr mb ->
  (forall x, rating mb = Some x -> (0 <= x /\ x <= 10)%Q) /\
  (forall y, year mb = Some y -> y = 0 \/ (1900 <= y /\ y <= now_year + 1)).
Proof.
  unfold validate_movie_base.
  destruct (movie_base_errors now_year m) eqn:Herr; [|discriminate].
  destruct (in_id m) as [i|] eqn:Hi; [|discriminate].
  destruct (in_title m) as [t|] eqn:Ht; [|discriminate].
  intros [= <-]. simpl. unfold movie_base_errors in Herr. rewrite Hi, Ht in Herr.
  simpl in Herr.
  destruct (validate_year now_year (in_year m)) eqn:Hy; [|discriminate].
  destruct (validate_rating (in_rating m)) eqn:Hr; [|discriminate].
  split; [apply validate_rating_bounds; assumption|].
  intros y Hy'. rewrite Hy' in Hy. simpl in Hy.
  destruct (Z.eqb_spec y 0); [left; assumption|right].
  destruct (Z.ltb_spec y 1900), (Z.ltb_spec (now_year + 1) y); simpl in Hy;
    try discriminate; lia.
Qed.

Lemma movie_base_invariants_witness :
  validate_movie_base 2026 (mkMovieInput (Some "m1") (Some "T") None None (Some 2027) None (Some 7%Q)) =
    inr (mkMovieBase "m1" "T" None None (Some 2027) None (Some 7%Q)) /\
  (2027 = 0 \/ (1900 <= 2027 /\ 2027 <= 2026 + 1)).
Proof.
  split; [reflexivity|].
  apply (proj2 (movie_base_invariants 2026
    (mkMovieInput (Some "m1") (Some "T") None None (Some 2027) None (Some 7%Q))
    (mkMovieBase "m1" "T" None None (Some 2027) None (Some 7%Q)) eq_refl)).
  reflexivity.
Defined.

(** With the placeholder scrapers, the movie, series and watch routes
    never write the cache: their answers ([None] and [[]]) are falsy, so
    the store is left as it was, hit or miss. *)
Theorem placeholder_details_never_cached (q : request) (r : redis) :
  negative_suppressed q = true ->
  store (snd (handle placeholder_scrapers q r)) = store r.
Proof.
  intros Hq. rewrite handle_key.
  destruct (redis_get r (cache_key q)); [reflexivity|].
  destruct q; try discriminate; reflexivity.
Qed.

Lemma placeholder_details_never_cached_witness :
  negative_suppressed (GetWatch "w1") = true /\
  store (snd (handle placeholder_scrapers (GetWatch "w1") empty_redis)) = store empty_redis.
Proof.
  split; [reflexivity|]. apply placeholder_details_never_cached. reflexivity.
Defined.
